(** * Kannada speech-to-text pipeline: format selection and chunked transcription

    A shallow embedding of the two modules of the repository,

    - [audiotranslate.py]: [convert_to_wav], [transcribe_kannada_audio],
      [transcribe_long_kannada_audio], [main];
    - [ytb.py]: [extract_audio_from_stream_old], [get_available_formats],
      [extract_audio_from_stream], [list_available_formats];

    together with the properties the specification states about them.

    The external collaborators (the [speech_recognition] recogniser, [pydub],
    [yt_dlp], the file system) are not part of the repository.  They are
    represented by records of behaviours ([Studio], [Disk] and [Provider]
    below) over which every general theorem is quantified; the Python code
    itself - its control flow, its exception handlers, its arithmetic - is
    what is translated.  Of the [AudioFile] class of [speech_recognition] the
    names it defines are fixed as well ([sr_AudioFile]): the code reads an
    attribute and calls a method that the class does not have. *)

From Stdlib Require Import ZArith QArith Qround Lia Lqa List String Ascii Sorted Permutation.
From stdpp Require Import gmap strings list.

Open Scope string_scope.

(** ** Python exceptions and outcomes *)

(** The exception classes the two modules can tell apart.  Every constructor
    but [KeyboardInterrupt] stands for a subclass of [Exception];
    [KeyboardInterrupt] stands for the classes that derive from
    [BaseException] only, which [except Exception] does not catch. *)
Inductive exn : Type :=
| UnknownValueError                 (* sr.UnknownValueError *)
| RequestError (detail : string)    (* sr.RequestError *)
| ValueError (detail : string)
| TypeError (detail : string)
| KeyError (key : string)
| OtherException (detail : string)  (* OSError, AttributeError, ... *)
| KeyboardInterrupt.

Definition is_Exception (e : exn) : bool :=
  match e with
  | KeyboardInterrupt => false
  | _ => true
  end.

(** The result of evaluating a Python expression or call. *)
Inductive outcome (A : Type) : Type :=
| Returns (a : A)
| Raises (e : exn).
Arguments Returns {A} a.
Arguments Raises {A} e.

(** ** Python numbers and builtins *)

(** A finite float is represented by the rational it denotes; Python's [int]
    objects are [Z].  [int(x)] on a float truncates towards zero. *)
Definition int (x : Q) : Z := Z.quot (Qnum x) (Z.pos (Qden x)).

(** [min(a, b)]: the first argument unless the second is strictly smaller. *)
Definition py_min (a b : Q) : Q := if Qle_bool a b then a else b.

(** [len(range(start, stop, step))] for a non-zero [step]. *)
Definition range_length (start stop step : Z) : Z :=
  if (0 <? step)%Z then
    if (start <? stop)%Z then ((stop - start - 1) / step + 1)%Z else 0%Z
  else
    if (stop <? start)%Z then ((start - stop - 1) / (- step) + 1)%Z else 0%Z.

(** [range(start, stop, step)], as the list of the values it yields. *)
Definition range (start stop step : Z) : outcome (list Z) :=
  if (step =? 0)%Z then Raises (ValueError "range() arg 3 must not be zero")
  else Returns (map (fun k : nat => (start + Z.of_nat k * step)%Z)
                    (seq 0 (Z.to_nat (range_length start stop step)))).

(** [sep.join(parts)]. *)
Fixpoint join (sep : string) (parts : list string) : string :=
  match parts with
  | [] => ""
  | [p] => p
  | p :: rest => p +:+ sep +:+ join sep rest
  end.

(** [s.split(sep)] for a one-character separator.  Strings are sequences of
    UTF-8 bytes; the byte of an ASCII separator never occurs inside the
    encoding of another character, so splitting bytes splits characters. *)
Fixpoint split (sep : ascii) (s : string) : list string :=
  match s with
  | EmptyString => [EmptyString]
  | String c s' =>
      if Ascii.eqb c sep then EmptyString :: split sep s'
      else match split sep s' with
           | [] => [String c EmptyString]
           | w :: ws => String c w :: ws
           end
  end.

(** Number of occurrences of a character, [s.count(c)]. *)
Fixpoint count_char (c : ascii) (s : string) : nat :=
  match s with
  | EmptyString => 0
  | String d s' => (if Ascii.eqb d c then 1 else 0) + count_char c s'
  end.

(** [s.lower()], on the ASCII letters.  The code only looks at the last four
    characters of the result, and compares them with [".wav"]. *)
Definition lower_ascii (c : ascii) : ascii :=
  let n := nat_of_ascii c in
  if (65 <=? n)%nat && (n <=? 90)%nat then ascii_of_nat (n + 32) else c.

Fixpoint lower (s : string) : string :=
  match s with
  | EmptyString => EmptyString
  | String c s' => String (lower_ascii c) (lower s')
  end.

(** [s.endswith(suffix)]. *)
Definition endswith (s suffix : string) : bool :=
  let n := String.length s in
  let k := String.length suffix in
  (k <=? n)%nat && String.eqb (String.substring (n - k) k s) suffix.

(** [s.rsplit('.', 1)[0]]: what precedes the last dot, or all of [s] when it
    has none. *)
Fixpoint has_dot (s : string) : bool :=
  match s with
  | EmptyString => false
  | String c s' => Ascii.eqb c "."%char || has_dot s'
  end.

Fixpoint before_last_dot (s : string) : string :=
  match s with
  | EmptyString => EmptyString
  | String c s' =>
      if Ascii.eqb c "."%char && negb (has_dot s') then EmptyString
      else String c (before_last_dot s')
  end.

Definition rsplit_dot_head (s : string) : string :=
  if has_dot s then before_last_dot s else s.

(** ** A state and exception monad

    A Python function that reads and updates a state of type [S] and may
    raise.  The state reached when an exception is raised is kept: what was
    printed or requested before the exception stays printed or requested. *)

Definition prog (S A : Type) : Type := S -> outcome A * S.

#[export] Instance prog_ret {S : Type} : MRet (prog S) := fun A a s => (Returns a, s).

#[export] Instance prog_bind {S : Type} : MBind (prog S) := fun A B k m s =>
  match m s with
  | (Returns a, s') => k a s'
  | (Raises e, s') => (Raises e, s')
  end.

Definition raise {S A : Type} (e : exn) : prog S A := fun s => (Raises e, s).

Definition lift {S A : Type} (o : outcome A) : prog S A := fun s => (o, s).

(** [try: body  except ...: handler].  [handler e = None] when no [except]
    clause matches [e], which then propagates. *)
Definition try_except {S A : Type} (body : prog S A)
    (handler : exn -> option (prog S A)) : prog S A :=
  fun s =>
    match body s with
    | (Returns a, s') => (Returns a, s')
    | (Raises e, s') =>
        match handler e with
        | Some h => h s'
        | None => (Raises e, s')
        end
    end.

(** [for x in xs: acc = body(x, acc)]. *)
Fixpoint for_in {S X A : Type} (xs : list X) (body : X -> A -> prog S A) (acc : A)
  : prog S A :=
  match xs with
  | [] => mret acc
  | x :: xs' => a ← body x acc; for_in xs' body a
  end.

(** ** audiotranslate.py *)

Module AudioTranslate.

(** *** The recogniser and the audio file, as the code uses them *)

(** An [AudioData] object returned by [recognizer.record(source, duration)]:
    the stretch of the source that was read, from the stream position at the
    time of the call; [duration = None] is the call without the [duration]
    argument, which reads up to the end of the source. *)
Record AudioData : Type := mkAudioData {
  start : Q;
  duration : option Q
}.

(** The object that [with sr.AudioFile(path) as audio_file] binds, as the
    code uses it.  [enter_error] is the exception raised on entering the
    [with] block, if any; [DURATION] the length of the recording in seconds;
    [duration_seconds] what the evaluation of [audio_file.duration_seconds]
    gives; [seek_error i] the exception raised by [audio_file.seek(i)], if
    any. *)
Record AudioFile : Type := mkAudioFile {
  enter_error : option exn;
  DURATION : Q;
  duration_seconds : outcome Q;
  seek_error : Z -> option exn
}.

(** The [AttributeError] of an [AudioFile] for a name the class does not
    define. *)
Definition no_attribute (name : string) : exn :=
  OtherException ("'AudioFile' object has no attribute '" +:+ name +:+ "'").

(** The [AudioFile] class of [speech_recognition].  It has [DURATION]; it has
    no [duration_seconds] attribute and no [seek] method, so that reading the
    one and calling the other raise [AttributeError]. *)
Definition sr_AudioFile (enter_error : option exn) (DURATION : Q) : AudioFile :=
  mkAudioFile enter_error DURATION
    (Raises (no_attribute "duration_seconds"))
    (fun _ => Some (no_attribute "seek")).

(** The collaborators of the module.  The recognition backend answers a
    request knowing the requests made before it, so that stateful backends
    (a quota that runs out, a connection that drops) are covered. *)
Record Studio : Type := mkStudio {
  audio_file : string -> AudioFile;
  export_error : string -> string -> option exn;
  backend : list AudioData -> AudioData -> outcome string
}.

(** The lines the module prints. *)
Inductive message : Type :=
| ErrorConvertingAudio (e : exn)
| ConvertingToWav
| AudioFilePath (path : string)
| AdjustingForAmbientNoise
| ProcessingAudio
| Transcribing
| CouldNotUnderstand
| CouldNotRequestResults (e : exn)
| ErrorDuringTranscription (e : exn)
| ProcessingChunk (number : Z)
| ApiErrorInChunk (number : Z) (e : exn)
| ErrorProcessingAudio (e : exn).

(** The state a call runs in: the read position of the open audio stream (in
    seconds), the requests sent to the backend so far, and what was printed. *)
Record state : Type := mkState {
  position : Q;
  requests : list AudioData;
  stdout : list message
}.

Definition initial : state := mkState 0 [] [].

Abbreviation M := (prog state).

(** *** The primitive operations *)

Definition print (m : message) : M unit := fun s =>
  (Returns tt, mkState (position s) (requests s) (stdout s ++ [m])%list).

Definition set_position (p : Q) : M unit := fun s =>
  (Returns tt, mkState p (requests s) (stdout s)).

(** [with sr.AudioFile(path) as audio_file]: entering the block. *)
Definition enter (f : AudioFile) : M unit :=
  match enter_error f with
  | Some e => raise e
  | None => set_position 0
  end.

(** [audio_file.seek(i)]. *)
Definition seek (f : AudioFile) (i : Z) : M unit :=
  match seek_error f i with
  | Some e => raise e
  | None => set_position (inject_Z i)
  end.

(** [recognizer.record(audio_file, duration=d)]. *)
Definition record (f : AudioFile) (d : option Q) : M AudioData := fun s =>
  (Returns (mkAudioData (position s) d),
   mkState (match d with
            | Some d => position s + d
            | None => DURATION f
            end) (requests s) (stdout s)).

(** [recognizer.adjust_for_ambient_noise(audio_file, duration=d)] reads [d]
    seconds of the stream. *)
Definition adjust_for_ambient_noise (d : Q) : M unit := fun s =>
  (Returns tt, mkState (position s + d) (requests s) (stdout s)).

(** [recognizer.recognize_google(audio, language="kn-IN", show_all=False)]. *)
Definition recognize_google (w : Studio) (audio : AudioData) : M string := fun s =>
  (backend w (requests s) audio,
   mkState (position s) (requests s ++ [audio])%list (stdout s)).

(** *** The module's functions *)

(** The two markers of [transcribe_long_kannada_audio]: "[unclear]" and
    "[error]" in Kannada. *)
Definition unclear_sentinel : string := "[ಅಸ್ಪಷ್ಟ]".
Definition error_sentinel : string := "[ದೋಷ]".

(** [convert_to_wav(input_path, output_path)]; the [pydub] calls of its [try]
    block succeed or fail as a whole. *)
Definition convert_to_wav (w : Studio) (input_path output_path : string) : M bool :=
  try_except
    (match export_error w input_path output_path with
     | Some e => raise e
     | None => mret true
     end)
    (fun e => if is_Exception e
              then Some (print (ErrorConvertingAudio e);; mret false)
              else None).

(** [transcribe_kannada_audio(audio_file_path)]. *)
Definition transcribe_kannada_audio (w : Studio) (audio_file_path : string)
  : M (option string) :=
  let recognise (audio_file_path : string) : M (option string) :=
    print (AudioFilePath audio_file_path);;
    let f := audio_file w audio_file_path in
    enter f;;
    print AdjustingForAmbientNoise;;
    adjust_for_ambient_noise (1 # 2);;
    print ProcessingAudio;;
    audio ← record f None;
    print Transcribing;;
    text ← recognize_google w audio;
    mret (Some text) in
  try_except
    (if negb (endswith (lower audio_file_path) ".wav") then
       print ConvertingToWav;;
       let wav_path := rsplit_dot_head audio_file_path +:+ ".wav" in
       converted ← convert_to_wav w audio_file_path wav_path;
       if negb converted then mret None else recognise wav_path
     else recognise audio_file_path)
    (fun e =>
       match e with
       | UnknownValueError => Some (print CouldNotUnderstand;; mret None)
       | RequestError _ => Some (print (CouldNotRequestResults e);; mret None)
       | KeyboardInterrupt => None
       | _ => Some (print (ErrorDuringTranscription e);; mret None)
       end).

(** The body of the loop of [transcribe_long_kannada_audio], for the offset
    [i]; [full_text] is the list the body appends to. *)
Definition process_chunk (w : Studio) (f : AudioFile) (audio_duration : Q)
    (chunk_duration : Z) (i : Z) (full_text : list string) : M (list string) :=
  print (ProcessingChunk (i / chunk_duration + 1));;
  seek f i;;
  chunk ← record f (Some (py_min (inject_Z chunk_duration)
                                 (audio_duration - inject_Z i)));
  try_except
    (chunk_text ← recognize_google w chunk;
     mret (full_text ++ [chunk_text])%list)
    (fun e =>
       match e with
       | UnknownValueError => Some (mret (full_text ++ [unclear_sentinel])%list)
       | RequestError _ =>
           Some (print (ApiErrorInChunk (i / chunk_duration + 1) e);;
                 mret (full_text ++ [error_sentinel])%list)
       | _ => None
       end).

(** [transcribe_long_kannada_audio(audio_file_path, chunk_duration=30)]. *)
Definition transcribe_long_kannada_audio (w : Studio) (audio_file_path : string)
    (chunk_duration : Z) : M (option string) :=
  try_except
    (let f := audio_file w audio_file_path in
     enter f;;
     audio_duration ← lift (duration_seconds f);
     offsets ← lift (range 0 (int audio_duration) chunk_duration);
     full_text ← for_in offsets (process_chunk w f audio_duration chunk_duration) [];
     mret (Some (join " " full_text)))
    (fun e => if is_Exception e
              then Some (print (ErrorProcessingAudio e);; mret None)
              else None).

End AudioTranslate.

(** ** ytb.py *)

Module Ytb.

(** *** Format dictionaries *)

(** The values found in the format dictionaries [yt_dlp] returns.  Of a
    list or a dictionary (the HTTP headers of a format, its fragments) the
    code can observe nothing but whether it is empty. *)
Inductive pyval : Type :=
| PyNone
| PyBool (b : bool)
| PyInt (z : Z)
| PyFloat (q : Q)
| PyStr (s : string)
| PyContainer (nonempty : bool).

(** One entry of [info['formats']]: a dictionary with string keys. *)
Abbreviation format := (gmap string pyval).

(** [v == 'none'], for the result [v] of a [dict.get]. *)
Definition eq_none_str (v : option pyval) : bool :=
  match v with
  | Some (PyStr s) => String.eqb s "none"
  | _ => false
  end.

(** [f.get('vcodec') == 'none']. *)
Definition audio_only (f : format) : bool := eq_none_str (f !! "vcodec").

(** [f.get('acodec') != 'none']. *)
Definition has_audio (f : format) : bool := negb (eq_none_str (f !! "acodec")).

(** The truth value of an object, as [or] and [not] take it. *)
Definition truthy (v : pyval) : bool :=
  match v with
  | PyNone => false
  | PyBool b => b
  | PyInt z => negb (z =? 0)%Z
  | PyFloat q => negb (Qeq_bool q 0)
  | PyStr s => negb (String.eqb s "")
  | PyContainer nonempty => nonempty
  end.

(** [a or b]. *)
Definition py_or (a b : pyval) : pyval := if truthy a then a else b.

(** [f[key]]. *)
Definition getitem (f : format) (key : string) : outcome pyval :=
  match f !! key with
  | Some v => Returns v
  | None => Raises (KeyError key)
  end.

(** [os.path.join(a, b)] for a relative [b], on a POSIX system. *)
Definition os_path_join (a b : string) : string :=
  if String.eqb a "" || endswith a "/" then a +:+ b else a +:+ "/" +:+ b.

(** *** Sorting *)

(** Stable insertion into a list sorted by decreasing key: [x] goes in front
    of the first entry whose key is not greater than its own. *)
Fixpoint insert_desc {A : Type} (x : Q * A) (l : list (Q * A)) : list (Q * A) :=
  match l with
  | [] => [x]
  | y :: l' =>
      if Qle_bool (fst y) (fst x) then x :: y :: l' else y :: insert_desc x l'
  end.

Definition sort_desc {A : Type} (l : list (Q * A)) : list (Q * A) :=
  foldr insert_desc [] l.

(** The keys of the entries, computed from left to right as [sorted] does
    before it compares anything; the first key that raises ends the call. *)
Fixpoint decorate {A : Type} (key : A -> outcome Q) (l : list A)
  : outcome (list (Q * A)) :=
  match l with
  | [] => Returns []
  | x :: l' =>
      match key x with
      | Raises e => Raises e
      | Returns k =>
          match decorate key l' with
          | Raises e => Raises e
          | Returns kl => Returns ((k, x) :: kl)
          end
      end
  end.

(** [sorted(l, key=key, reverse=True)]: decreasing keys, entries with equal
    keys in their original order. *)
Definition sorted_reverse {A : Type} (key : A -> outcome Q) (l : list A)
  : outcome (list A) :=
  match decorate key l with
  | Raises e => Raises e
  | Returns kl => Returns (map snd (sort_desc kl))
  end.

(** *** Conversion to float *)

(** [float(z)] for an [int]: the double nearest to [z], ties going to the
    even significand, or [OverflowError] when that is beyond the range of the
    doubles.  Integers below [2^53] in magnitude are doubles themselves. *)
Definition float_of_int (z : Z) : outcome Q :=
  let a := Z.abs z in
  if (a <? 2 ^ 53)%Z then Returns (inject_Z z)
  else
    let shift := (Z.log2 a - 52)%Z in
    let m := (a / 2 ^ shift)%Z in
    let r := (a mod 2 ^ shift)%Z in
    let half := (2 ^ (shift - 1))%Z in
    let m' := if (half <? r)%Z || ((r =? half)%Z && Z.odd m) then (m + 1)%Z else m in
    let v := (m' * 2 ^ shift)%Z in
    if (2 ^ 1024 <=? v)%Z
    then Raises (OtherException "int too large to convert to float")
    else Returns (inject_Z (Z.sgn z * v)).

(** *** Selection *)

Section Selection.

(** [float(s)] on a string: the number it denotes, or [None] where the
    builtin raises [ValueError]. *)
Variable float_of_str : string -> option Q.

(** [float(v)]. *)
Definition float (v : pyval) : outcome Q :=
  match v with
  | PyNone => Raises (TypeError "float() argument must be a string or a real number")
  | PyBool b => Returns (if b then 1 else 0)%Q
  | PyInt z => float_of_int z
  | PyFloat q => Returns q
  | PyStr s =>
      match float_of_str s with
      | Some q => Returns q
      | None => Raises (ValueError "could not convert string to float")
      end
  | PyContainer _ =>
      Raises (TypeError "float() argument must be a string or a real number")
  end.

(** The sort key [lambda x: float(x.get('abr', 0) or 0)]. *)
Definition abr_key (x : format) : outcome Q :=
  float (py_or (default (PyInt 0) (x !! "abr")) (PyInt 0)).

(** The filter of [get_available_formats]: the audio-only formats, or, when
    there is none, the formats with audio. *)
Definition audio_formats_of (formats : list format) : list format :=
  let audio_formats := List.filter audio_only formats in
  match audio_formats with
  | [] => List.filter has_audio formats
  | _ => audio_formats
  end.

(** What [extract_audio_from_stream] makes of the list it got from
    [get_available_formats]: [None] when the list is empty (the function then
    returns [None]), otherwise the value of the variable [best_audio]. *)
Definition best_audio (audio_formats : list format) : outcome (option format) :=
  match audio_formats with
  | [] => Returns None
  | _ =>
      match sorted_reverse abr_key audio_formats with
      | Raises e => Raises e
      | Returns [] => Raises (OtherException "list index out of range")
      | Returns (best :: _) => Returns (Some best)
      end
  end.

(** Format selection as a whole: the filter followed by the ranking. *)
Definition select_best_audio (formats : list format) : outcome (option format) :=
  best_audio (audio_formats_of formats).

(** *** The provider and the functions that call it *)

(** The options handed to [yt_dlp.YoutubeDL] that vary from call to call. *)
Record ydl_opts : Type := mkOpts {
  opt_format : pyval;
  outtmpl : string;
  ffmpeg_location : string
}.

(** The collaborators of the module: the file system, the clock and [yt_dlp].
    [extract_info url] is [None] inside [Returns] when the dictionary it
    returns has no ['formats'] entry. *)
Record Provider : Type := mkProvider {
  makedirs_error : string -> option exn;
  extract_info : string -> outcome (option (list format));
  dump_error : list format -> option exn;
  timestamp : string;
  download_error : ydl_opts -> string -> option exn
}.

(** What a call does to the outside, in order: the calls it makes to its
    collaborators, whether they succeed or raise, and the lines it prints. *)
Inductive event : Type :=
| MakeDirs (dir : string)
| WriteDataJson (formats : list format)
| PrintFormats (formats : list format)
| PrintErrorGettingFormats (e : exn)
| PrintNoSuitableFormats
| PrintStarting (url : string)
| PrintUsingFormat (name bitrate : pyval)
| Download (opts : ydl_opts) (url : string)
| PrintSaved (path : string)
| PrintErrorExtracting (e : exn).

Abbreviation T := (prog (list event)).

Definition emit (ev : event) : T unit := fun tr => (Returns tt, (tr ++ [ev])%list).

Definition check (err : option exn) : T unit :=
  match err with
  | Some e => raise e
  | None => mret tt
  end.

(** [get_available_formats(url)]. *)
Definition get_available_formats (p : Provider) (url : string) : T (list format) :=
  try_except
    (info ← lift (extract_info p url);
     let formats := default [] info in
     emit (WriteDataJson formats);;
     check (dump_error p formats);;
     emit (PrintFormats formats);;
     mret (audio_formats_of formats))
    (fun e => if is_Exception e
              then Some (emit (PrintErrorGettingFormats e);; mret [])
              else None).

(** [extract_audio_from_stream(url, output_dir)]. *)
Definition extract_audio_from_stream (p : Provider) (url output_dir : string)
  : T (option string) :=
  emit (MakeDirs output_dir);;
  check (makedirs_error p output_dir);;
  audio_formats ← get_available_formats p url;
  selected ← lift (best_audio audio_formats);
  match selected with
  | None => emit PrintNoSuitableFormats;; mret None
  | Some best =>
      format_id ← lift (getitem best "format_id");
      let output_filename := "audio_stream_" +:+ timestamp p in
      let output_path := os_path_join output_dir output_filename in
      let opts := mkOpts format_id output_path "/usr/local/bin/ffmpeg" in
      try_except
        (emit (PrintStarting url);;
         emit (PrintUsingFormat (default (PyStr "unknown") (best !! "format"))
                                (default (PyStr "unknown") (best !! "abr")));;
         emit (Download opts url);;
         check (download_error p opts url);;
         emit (PrintSaved output_path);;
         mret (Some (output_path +:+ ".mp3")))
        (fun e => if is_Exception e
                  then Some (emit (PrintErrorExtracting e);; mret None)
                  else None)
  end.

End Selection.

(** A conversion for the strings made of ASCII digits only; it agrees with
    the builtin on those that denote an integer below [2^53].  It is used for
    concrete inputs only, and there on no other strings than "160" and "abc",
    the second of which the builtin rejects as well. *)
Definition digit_value (c : ascii) : option Z :=
  let n := nat_of_ascii c in
  if (48 <=? n)%nat && (n <=? 57)%nat then Some (Z.of_nat (n - 48)) else None.

Fixpoint digits_value (acc : Z) (s : string) : option Z :=
  match s with
  | EmptyString => Some acc
  | String c s' =>
      match digit_value c with
      | Some d => digits_value (10 * acc + d)%Z s'
      | None => None
      end
  end.

Definition float_of_digits (s : string) : option Q :=
  match s with
  | EmptyString => None
  | _ => option_map inject_Z (digits_value 0 s)
  end.

End Ytb.

(** * Vocabulary of the properties *)

Import AudioTranslate.

(** ** Vocabulary for chunked transcription *)

(** The audio that the loop of [transcribe_long_kannada_audio] records at the
    offset [i], when [audio_duration] is what line 94 has read. *)
Definition chunk_at (audio_duration : Q) (chunk_duration i : Z) : AudioData :=
  mkAudioData (inject_Z i)
    (Some (py_min (inject_Z chunk_duration) (audio_duration - inject_Z i))).

(** The two recognition failures of a backend: it cannot decode the speech,
    or the request fails. *)
Definition recognition_failure (o : outcome string) : bool :=
  match o with
  | Raises UnknownValueError => true
  | Raises (RequestError _) => true
  | _ => false
  end.

(** ** Vocabulary for format selection *)

Import Ytb.



(** The number that a bitrate field stands for: the number itself, the
    number that a string denotes, zero for [None] and for what is empty, and
    nothing for what is not a number. *)
Definition number_of (float_of_str : string -> option Q) (v : pyval) : option Q :=
  match v with
  | PyNone => Some 0%Q
  | PyBool b => Some (if b then 1 else 0)%Q
  | PyInt z => Some (inject_Z z)
  | PyFloat q => Some q
  | PyStr EmptyString => Some 0%Q
  | PyStr s => float_of_str s
  | PyContainer nonempty => if nonempty then None else Some 0%Q
  end.

(** The bitrate of a format, as the specification counts it: the number its
    ['abr'] field stands for, and zero when it has none. *)
Definition bitrate (float_of_str : string -> option Q) (f : format) : Q :=
  match f !! "abr" with
  | Some v => default 0%Q (number_of float_of_str v)
  | None => 0%Q
  end.






(** No download was attempted. *)
Definition no_download (tr : list event) : Prop :=
  forall opts url, ~ In (Download opts url) tr.

(** ** Concrete collaborators and inputs *)

(** An audio file of [d] seconds that opens. *)
Definition readable (d : Q) : AudioFile := sr_AudioFile None d.

(** An audio file that cannot be opened. *)
Definition unreadable (reason : string) : AudioFile :=
  sr_AudioFile (Some (OtherException reason)) 0.

(** An object that is not an [AudioFile] of the library: it opens, it has a
    [duration_seconds] attribute, of value [d], and a [seek] method, which
    fails at the offset [bad]. *)
Definition seekable_but_at (d : Q) (bad : Z) (reason : string) : AudioFile :=
  mkAudioFile None d (Returns d)
    (fun i => if (i =? bad)%Z then Some (OtherException reason) else None).

(** A backend that always gives the same answer. *)
Definition always (o : outcome string) : list AudioData -> AudioData -> outcome string :=
  fun _ _ => o.

(** A backend that gives the answers of a script, one per request, and
    [Returns otherwise] once the script is over. *)
Definition scripted (script : list (outcome string)) (otherwise : string)
  : list AudioData -> AudioData -> outcome string :=
  fun history _ => nth (length history) script (Returns otherwise).

(** A studio with one audio file behind every path and a conversion that
    always succeeds. *)
Definition studio (f : AudioFile) (b : list AudioData -> AudioData -> outcome string)
  : Studio :=
  mkStudio (fun _ => f) (fun _ _ => None) b.

(** Format dictionaries: two audio-only formats of equal bitrate, a format
    with video and audio, an audio-only format without bitrate, one whose
    bitrate is not a number, and one without any audio. *)
Definition m4a_128 : format :=
  {[ "format_id" := PyStr "140"; "vcodec" := PyStr "none";
     "acodec" := PyStr "mp4a.40.2"; "abr" := PyFloat (128 # 1) ]}.

Definition opus_128 : format :=
  {[ "format_id" := PyStr "251"; "vcodec" := PyStr "none";
     "acodec" := PyStr "opus"; "abr" := PyFloat (128 # 1) ]}.

Definition mp4_96 : format :=
  {[ "format_id" := PyStr "18"; "vcodec" := PyStr "avc1.42001E";
     "acodec" := PyStr "mp4a.40.2"; "abr" := PyInt 96 ]}.



Definition opus_garbled : format :=
  {[ "format_id" := PyStr "250"; "vcodec" := PyStr "none";
     "acodec" := PyStr "opus"; "abr" := PyStr "abc" ]}.

Definition video_only : format :=
  {[ "format_id" := PyStr "137"; "vcodec" := PyStr "avc1.640028";
     "acodec" := PyStr "none" ]}.

(** A provider that lists [formats] for every URL and never fails. *)
Definition provider (formats : list format) : Provider :=
  mkProvider (fun _ => None) (fun _ => Returns (Some formats)) (fun _ => None)
    "20240101_120000" (fun _ _ => None).

(** * The callers and the remaining functions *)

(** ** audiotranslate.py: main *)

Module AudioTranslateMain.

(** What [main] asks the file system: [os.path.exists], which answers
    [False] where it cannot tell, and [os.path.getsize], which raises
    [OSError] where it cannot. *)
Record Disk : Type := mkDisk {
  path_exists : string -> bool;
  getsize : string -> outcome Z
}.

(** The lines [main] prints, among them those of the transcriber it calls. *)
Inductive line : Type :=
| AudioFileNotFound
| LargeFileDetected
| Printed (m : message)
| TranscribedText (text : string)
| TranscriptionFailed.

(** What a run of [main] leaves behind: how it ended, what was printed and
    what the backend was asked. *)
Record report : Type := mkReport {
  ended : outcome unit;
  printed : list line;
  asked : list AudioData
}.

(** [if text:] on what a transcriber returned: neither [None] nor the empty
    string. *)
Definition has_text (text : option string) : bool :=
  match text with
  | Some (String _ _) => true
  | _ => false
  end.

(** What [main] does once [input] has returned [audio_path] and
    [os.path.getsize] has returned [file_size]. *)
Definition transcribe_and_report (w : Studio) (audio_path : string) (file_size : Z)
  : report :=
  let large := (10 * 1024 * 1024 <? file_size)%Z in
  let '(r, s) :=
    if large then transcribe_long_kannada_audio w audio_path 30 initial
    else transcribe_kannada_audio w audio_path initial in
  let out :=
    ((if large then [LargeFileDetected] else []) ++ map Printed (stdout s))%list in
  match r with
  | Raises e => mkReport (Raises e) out (requests s)
  | Returns text =>
      mkReport (Returns tt)
        (out ++ match text with
                | Some t => if has_text text then [TranscribedText t]
                            else [TranscriptionFailed]
                | None => [TranscriptionFailed]
                end)%list
        (requests s)
  end.

(** [main()]; [typed] is what [input] gives: the line typed at the prompt,
    or the exception it raises (at the end of the input, on an
    interruption). *)
Definition main (w : Studio) (d : Disk) (typed : outcome string) : report :=
  match typed with
  | Raises e => mkReport (Raises e) [] []
  | Returns audio_path =>
      if negb (path_exists d audio_path) then
        mkReport (Returns tt) [AudioFileNotFound] []
      else
        match getsize d audio_path with
        | Raises e => mkReport (Raises e) [] []
        | Returns file_size => transcribe_and_report w audio_path file_size
        end
  end.

End AudioTranslateMain.

(** ** ytb.py: the first extraction function and the listing *)

Module YtbListing.

(** [extract_audio_from_stream_old(url, output_dir)].  Its options have no
    ['ffmpeg_location'] entry, which the empty string stands for. *)
Definition extract_audio_from_stream_old (p : Provider) (url output_dir : string)
  : prog (list event) (option string) :=
  emit (MakeDirs output_dir);;
  check (makedirs_error p output_dir);;
  let output_filename := "audio_stream_" +:+ timestamp p +:+ ".mp3" in
  let output_path := os_path_join output_dir output_filename in
  let opts := mkOpts (PyStr "mp3/192") output_path "" in
  try_except
    (emit (PrintStarting url);;
     emit (Download opts url);;
     check (download_error p opts url);;
     emit (PrintSaved output_path);;
     mret (Some output_path))
    (fun e => if is_Exception e
              then Some (emit (PrintErrorExtracting e);; mret None)
              else None).

(** What [list_available_formats] prints and does: what the probe does, the
    heading, and for each format its identifier, its name and its bitrate
    followed by a rule. *)
Inductive listing : Type :=
| Probed (ev : event)
| AvailableAudioFormats
| FormatEntry (format_id name bitrate : pyval).

(** The entry of a format, ['N/A'] standing for what it does not have. *)
Definition entry_of (f : format) : listing :=
  FormatEntry (default (PyStr "N/A") (f !! "format_id"))
              (default (PyStr "N/A") (f !! "format"))
              (default (PyStr "N/A") (f !! "abr")).

(** [list_available_formats(url)]. *)
Definition list_available_formats (p : Provider) (url : string)
  : outcome unit * list listing :=
  match get_available_formats p url [] with
  | (Raises e, tr) => (Raises e, map Probed tr)
  | (Returns formats, tr) =>
      (Returns tt, (map Probed tr ++ AvailableAudioFormats :: map entry_of formats)%list)
  end.

End YtbListing.

(** ** Vocabulary for the callers *)

Import AudioTranslateMain YtbListing.

(** The downloads attempted in a run, in order. *)
Definition downloads (tr : list event) : list (ydl_opts * string) :=
  List.flat_map (fun ev => match ev with
                           | Download opts url => [(opts, url)]
                           | _ => []
                           end) tr.

(** A call ends without an exception of class [Exception]: it returns, or
    lets through what no handler of the module catches. *)
Definition contained {A : Type} (o : outcome A) : Prop :=
  match o with
  | Returns _ => True
  | Raises e => is_Exception e = false
  end.

(** The entries of a listing. *)
Definition entries (out : list listing) : list listing :=
  List.filter (fun l => match l with FormatEntry _ _ _ => true | _ => false end) out.

(** The file that [transcribe_kannada_audio] opens for a path: the path
    itself when it has the WAV extension, else the path it converts to. *)
Definition wav_path_of (audio_file_path : string) : string :=
  if endswith (lower audio_file_path) ".wav" then audio_file_path
  else rsplit_dot_head audio_file_path +:+ ".wav".

(** A disk on which every path exists and has the size [size]. *)
Definition disk (size : Z) : Disk := mkDisk (fun _ => true) (fun _ => Returns size).

(** A provider that lists [formats] and on which downloads fail. *)
Definition offline (formats : list format) (reason : string) : Provider :=
  mkProvider (fun _ => None) (fun _ => Returns (Some formats)) (fun _ => None)
    "20240101_120000" (fun _ _ => Some (OtherException reason)).

(** A provider whose probe fails. *)
Definition unreachable (reason : string) : Provider :=
  mkProvider (fun _ => None) (fun _ => Raises (OtherException reason)) (fun _ => None)
    "20240101_120000" (fun _ _ => None).

(** A provider that lists [formats] but cannot write [data.json]. *)
Definition read_only (formats : list format) (reason : string) : Provider :=
  mkProvider (fun _ => None) (fun _ => Returns (Some formats))
    (fun _ => Some (OtherException reason)) "20240101_120000" (fun _ _ => None).










(** An audio-only format without identifier. *)
Definition anonymous_audio : format :=
  {[ "vcodec" := PyStr "none"; "acodec" := PyStr "opus"; "abr" := PyInt 160 ]}.

(** A studio whose conversion to WAV fails. *)
Definition no_ffmpeg (f : AudioFile) (reason : string)
    (b : list AudioData -> AudioData -> outcome string) : Studio :=
  mkStudio (fun _ => f) (fun _ _ => Some (OtherException reason)) b.

(** * Lemmas *)

(** ** Strings *)

Lemma append_empty (s : string) : "" +:+ s = s.
Proof. reflexivity. Qed.

Lemma append_String (c : ascii) (p s : string) :
  String c p +:+ s = String c (p +:+ s).
Proof. reflexivity. Qed.

Lemma split_no_sep (sep : ascii) (p : string) :
  count_char sep p = 0%nat -> split sep p = [p].
Proof.
  induction p as [| c p IH]; intros Hcount; [reflexivity |].
  cbn in *. destruct (Ascii.eqb c sep); [discriminate |].
  rewrite IH by exact Hcount. reflexivity.
Qed.

Lemma split_append (sep : ascii) (p rest : string) :
  count_char sep p = 0%nat ->
  split sep (p +:+ String sep rest) = p :: split sep rest.
Proof.
  induction p as [| c p IH]; intros Hcount.
  - rewrite append_empty. cbn. rewrite Ascii.eqb_refl. reflexivity.
  - rewrite append_String. cbn in *. destruct (Ascii.eqb c sep); [discriminate |].
    rewrite IH by exact Hcount. reflexivity.
Qed.

Lemma split_join (sep : ascii) (parts : list string) :
  parts <> [] ->
  Forall (fun p => count_char sep p = 0%nat) parts ->
  split sep (join (String sep EmptyString) parts) = parts.
Proof.
  induction parts as [| p rest IH]; intros Hne Hall; [contradiction |].
  inversion Hall as [| ? ? Hp Hrest]; subst.
  destruct rest as [| q rest].
  - cbn. apply split_no_sep, Hp.
  - change (join (String sep EmptyString) (p :: q :: rest))
      with (p +:+ String sep EmptyString +:+ join (String sep EmptyString) (q :: rest)).
    rewrite append_String, append_empty.
    rewrite split_append by exact Hp.
    rewrite IH by (auto; discriminate). reflexivity.
Qed.

(** ** Lists *)

Lemma app_one_neq {A : Type} (l : list A) (a : A) : l <> (l ++ [a])%list.
Proof.
  intros H. apply (f_equal (@length A)) in H.
  rewrite length_app in H. cbn in H. lia.
Qed.


Lemma filter_nil_iff {A : Type} (p : A -> bool) (l : list A) :
  List.filter p l = [] <-> Forall (fun x => p x = false) l.
Proof.
  induction l as [| a l IH]; cbn.
  - split; [constructor | reflexivity].
  - destruct (p a) eqn:Hpa; split; intros H.
    + discriminate.
    + inversion H; congruence.
    + constructor; [exact Hpa | apply IH, H].
    + inversion H; subst. apply IH. assumption.
Qed.



(** ** The chunked transcriber *)

(** Nothing but what is outside [Exception] leaves the chunked
    transcriber. *)
Lemma transcribe_long_contained w path chunk_duration s :
  contained (fst (transcribe_long_kannada_audio w path chunk_duration s)).
Proof.
  unfold transcribe_long_kannada_audio, try_except.
  match goal with
  | |- contained (fst (match ?body with _ => _ end)) =>
      destruct body as [[text | e] s1]
  end; [exact I |].
  destruct (is_Exception e) eqn:Hexc; [exact I | exact Hexc].
Qed.

(** A run on a file that does not open. *)
Lemma transcribe_long_not_opened w path chunk_duration e :
  enter_error (audio_file w path) = Some e ->
  is_Exception e = true ->
  transcribe_long_kannada_audio w path chunk_duration initial
  = (Returns None, mkState 0 [] [ErrorProcessingAudio e]).
Proof.
  intros Henter Hexc.
  unfold transcribe_long_kannada_audio, try_except, enter, raise, print,
    mbind, prog_bind, mret, prog_ret.
  rewrite Henter. cbn. rewrite Hexc. reflexivity.
Qed.

(** A run on a file that opens and on which the evaluation of
    [audio_file.duration_seconds] raises. *)
Lemma transcribe_long_no_duration w path chunk_duration e :
  enter_error (audio_file w path) = None ->
  duration_seconds (audio_file w path) = Raises e ->
  is_Exception e = true ->
  transcribe_long_kannada_audio w path chunk_duration initial
  = (Returns None, mkState 0 [] [ErrorProcessingAudio e]).
Proof.
  intros Henter Hread Hexc.
  unfold transcribe_long_kannada_audio, try_except, enter, set_position, lift,
    raise, print, mbind, prog_bind, mret, prog_ret.
  rewrite Henter. cbn. rewrite Hread. cbn. rewrite Hexc. reflexivity.
Qed.

(** One passage through the loop asks the backend for the chunk of its
    offset, once, unless the seek fails. *)
Lemma process_chunk_requests w f audio_duration chunk_duration i full_text s :
  let run := process_chunk w f audio_duration chunk_duration i full_text s in
  (exists full_text',
     fst run = Returns full_text'
     /\ requests (snd run)
        = (requests s ++ [chunk_at audio_duration chunk_duration i])%list)
  \/ (exists e,
        fst run = Raises e
        /\ (requests (snd run) = requests s
            \/ requests (snd run)
               = (requests s ++ [chunk_at audio_duration chunk_duration i])%list)).
Proof.
  unfold process_chunk, seek, print, raise, set_position, record, recognize_google,
    try_except, mbind, prog_bind, mret, prog_ret.
  destruct (seek_error f i) as [e |]; cbn.
  - right. exists e. auto.
  - fold (chunk_at audio_duration chunk_duration i).
    destruct (backend w (requests s) (chunk_at audio_duration chunk_duration i))
      as [text | e]; cbn.
    + left. eauto.
    + destruct e; cbn; first [ left; eexists; split; reflexivity
                             | right; eexists; split; [reflexivity | right; reflexivity] ].
Qed.

Lemma for_in_requests w f audio_duration chunk_duration offsets : forall full_text s,
  exists n,
    requests (snd (for_in offsets (process_chunk w f audio_duration chunk_duration)
                     full_text s))
    = (requests s ++ map (chunk_at audio_duration chunk_duration) (take n offsets))%list.
Proof.
  induction offsets as [| i offsets IH]; intros full_text s.
  - exists 0%nat. cbn. rewrite app_nil_r. reflexivity.
  - cbn [for_in]. unfold mbind, prog_bind.
    pose proof (process_chunk_requests w f audio_duration chunk_duration i full_text s)
      as Hstep.
    cbn zeta in Hstep.
    destruct (process_chunk w f audio_duration chunk_duration i full_text s)
      as [[a | e] s1]; cbn [fst snd] in Hstep.
    + destruct Hstep as [(a' & _ & Hreq) | (e & Hraise & _)]; [| discriminate Hraise].
      destruct (IH a s1) as (n & Hn).
      exists (S n). rewrite Hn, Hreq. cbn [take map].
      rewrite <- app_assoc. reflexivity.
    + destruct Hstep as [(a' & Hret & _) | (e' & _ & [Hreq | Hreq])]; [discriminate Hret | |].
      * exists 0%nat. cbn. rewrite app_nil_r. exact Hreq.
      * exists 1%nat. cbn. exact Hreq.
Qed.

(** The requests of a run are the first chunks of the sequence planned from
    the duration read, and there is none when the duration cannot be
    read. *)
Lemma transcribe_long_requests w path chunk_duration :
  let f := audio_file w path in
  let run := transcribe_long_kannada_audio w path chunk_duration initial in
  match duration_seconds f with
  | Returns audio_duration =>
      match range 0 (int audio_duration) chunk_duration with
      | Returns offsets =>
          exists n,
            requests (snd run)
            = map (chunk_at audio_duration chunk_duration) (take n offsets)
      | Raises _ => requests (snd run) = []
      end
  | Raises _ => requests (snd run) = []
  end.
Proof.
  intros f run.
  unfold run, transcribe_long_kannada_audio, try_except, enter, raise, set_position,
    lift, print, mbind, prog_bind, mret, prog_ret.
  fold f. destruct (enter_error f) as [e |]; cbn.
  - destruct (duration_seconds f) as [audio_duration | e'];
      [destruct (range 0 (int audio_duration) chunk_duration) as [offsets | e'] |];
      try (exists 0%nat); destruct (is_Exception e); reflexivity.
  - destruct (duration_seconds f) as [audio_duration | e]; cbn.
    + destruct (range 0 (int audio_duration) chunk_duration) as [offsets | e]; cbn.
      * destruct (for_in_requests w f audio_duration chunk_duration offsets []
                    (mkState 0 [] [])) as (n & Hn).
        exists n.
        destruct (for_in offsets (process_chunk w f audio_duration chunk_duration) []
                    (mkState 0 [] [])) as [[full_text | e] s1]; cbn [snd] in *.
        -- exact Hn.
        -- destruct (is_Exception e); exact Hn.
      * destruct (is_Exception e); reflexivity.
    + destruct (is_Exception e); reflexivity.
Qed.



(** When a run returns [None], an exception was caught, and printed last. *)
Lemma transcribe_long_None_printed w path chunk_duration s' :
  transcribe_long_kannada_audio w path chunk_duration initial = (Returns None, s') ->
  exists e out,
    is_Exception e = true /\ stdout s' = (out ++ [ErrorProcessingAudio e])%list.
Proof.
  unfold transcribe_long_kannada_audio, try_except, enter, raise, set_position,
    lift, print, mbind, prog_bind, mret, prog_ret.
  set (f := audio_file w path).
  assert (Hcaught : forall e s1,
            match (if is_Exception e
                   then Some (fun s : state =>
                          match (Returns tt,
                                 mkState (position s) (requests s)
                                   (stdout s ++ [ErrorProcessingAudio e])%list)
                          with
                          | (Returns _, s2) => (Returns (@None string), s2)
                          | (Raises e2, s2) => (Raises e2, s2)
                          end)
                   else None)
            with
            | Some h => h s1
            | None => (Raises e, s1)
            end = (Returns None, s') ->
            exists e0 out,
              is_Exception e0 = true /\ stdout s' = (out ++ [ErrorProcessingAudio e0])%list).
  { intros e s1 H. destruct (is_Exception e) eqn:Hexc; [| discriminate H].
    injection H as <-. exists e, (stdout s1). auto. }
  destruct (enter_error f) as [e |]; cbn; [apply Hcaught |].
  destruct (duration_seconds f) as [audio_duration | e]; cbn; [| apply Hcaught].
  destruct (range 0 (int audio_duration) chunk_duration) as [offsets | e]; cbn;
    [| apply Hcaught].
  destruct (for_in offsets (process_chunk w f audio_duration chunk_duration) []
              (mkState 0 [] [])) as [[full_text | e] s1]; cbn;
    [discriminate | apply Hcaught].
Qed.

(** ** Stable sorting by decreasing key *)

Section Sorting.

Context {A : Type}.

Lemma insert_desc_perm (x : Q * A) (l : list (Q * A)) :
  Permutation (insert_desc x l) (x :: l).
Proof.
  induction l as [| y l IH]; cbn; [reflexivity |].
  destruct (Qle_bool (fst y) (fst x)); [reflexivity |].
  rewrite IH. apply perm_swap.
Qed.

Lemma sort_desc_perm (l : list (Q * A)) : Permutation (sort_desc l) l.
Proof.
  induction l as [| x l IH]; cbn; [reflexivity |].
  fold (sort_desc l). rewrite insert_desc_perm. rewrite IH. reflexivity.
Qed.




Variable key : A -> outcome Q.

Lemma decorate_Returns (l : list A) : forall kl,
  decorate key l = Returns kl ->
  map snd kl = l /\ Forall (fun p => key (snd p) = Returns (fst p)) kl.
Proof.
  induction l as [| x l IH]; intros kl Hdec; cbn in Hdec.
  - injection Hdec as <-. split; constructor.
  - destruct (key x) as [k |] eqn:Hk; [| discriminate].
    destruct (decorate key l) as [kl' |]; [| discriminate].
    injection Hdec as <-.
    destruct (IH kl' eq_refl) as [Hmap Hall].
    split; [cbn; rewrite Hmap; reflexivity |].
    constructor; [exact Hk | exact Hall].
Qed.


End Sorting.


(** ** The filter and the codecs *)



(** ** Conversion of integers *)


(** ** Filtering and ranking of formats *)

Lemma audio_formats_of_audio_only (formats : list format) :
  List.filter audio_only formats <> [] ->
  audio_formats_of formats = List.filter audio_only formats.
Proof.
  unfold audio_formats_of. destruct (List.filter audio_only formats); [contradiction | reflexivity].
Qed.

Lemma audio_formats_of_fallback (formats : list format) :
  Forall (fun f => audio_only f = false) formats ->
  audio_formats_of formats = List.filter has_audio formats.
Proof.
  intros H. apply filter_nil_iff in H. unfold audio_formats_of. rewrite H. reflexivity.
Qed.

Section Ranking.

Variable float_of_str : string -> option Q.








End Ranking.



(** * The chunked transcriber *)

(** C1.  Line 94 reads [audio_file.duration_seconds], which the [AudioFile]
    class of [speech_recognition] does not define: on a file that opens the
    read raises [AttributeError], the outer handler prints it and the
    function returns [None].  The loop of lines 97-116 is never entered and
    no chunk is recorded or sent: neither for a recording of 90 seconds, for
    which the property asks for the three chunks [0, 30), [30, 60) and
    [60, 90), nor for one of 30.5 seconds, for which it asks for
    ceil(30.5 / 30) = 2 chunks. *)
Theorem chunking_never_starts :
  transcribe_long_kannada_audio
    (studio (readable 90) (always (Returns "text"))) "talk.wav" 30 initial
  = (Returns None,
     mkState 0 [] [ErrorProcessingAudio (no_attribute "duration_seconds")])
  /\ transcribe_long_kannada_audio
       (studio (readable (61 # 2)) (always (Returns "text"))) "talk.wav" 30 initial
     = (Returns None,
        mkState 0 [] [ErrorProcessingAudio (no_attribute "duration_seconds")])
  /\ Qceiling (90 / 30) = 3%Z
  /\ Qceiling ((61 # 2) / 30) = 2%Z.
Proof.
  repeat split; vm_compute; reflexivity.
Qed.

(** C2.  On a recording of 150 seconds that opens, with a backend that would
    return a text for the first two chunks, fail to decode the third and
    fail the request for the fourth, the property asks for five segments
    joined by spaces, the third being the "unclear" marker and the fourth
    the "error" marker.  The function returns [None] without a single
    request to the backend: the read of [duration_seconds] at line 94 raises
    before the loop that holds the two handlers is reached. *)
Theorem chunk_handlers_are_never_reached :
  transcribe_long_kannada_audio
    (studio (readable 150)
       (scripted [Returns "a"; Returns "b"; Raises UnknownValueError;
                  Raises (RequestError "quota")] "e"))
    "talk.wav" 30 initial
  = (Returns None,
     mkState 0 [] [ErrorProcessingAudio (no_attribute "duration_seconds")])
  /\ unclear_sentinel <> error_sentinel.
Proof.
  split; [vm_compute; reflexivity | discriminate].
Qed.

(** * Format selection *)







(** C5.  When the list is empty, or holds only formats that are neither
    audio-only nor with audio, the selection ends on [None]:
    [extract_audio_from_stream] prints that no suitable format was found and
    returns [None] to its caller, once, without any download. *)
Theorem no_suitable_format float_of_str (formats : list format) :
  Forall (fun f => audio_only f = false /\ has_audio f = false) formats ->
  select_best_audio float_of_str formats = Returns None
  /\ forall p url output_dir info,
       makedirs_error p output_dir = None ->
       extract_info p url = Returns info ->
       default [] info = formats ->
       dump_error p formats = None ->
       extract_audio_from_stream float_of_str p url output_dir []
       = (Returns None,
          [MakeDirs output_dir; WriteDataJson formats; PrintFormats formats;
           PrintNoSuitableFormats])
       /\ no_download (snd (extract_audio_from_stream float_of_str p url output_dir [])).
Proof.
  intros Hnone.
  assert (Hempty : audio_formats_of formats = []).
  { rewrite audio_formats_of_fallback.
    - apply filter_nil_iff. eapply List.Forall_impl; [| exact Hnone]. intros f [_ H]. exact H.
    - eapply List.Forall_impl; [| exact Hnone]. intros f [H _]. exact H. }
  split.
  - unfold select_best_audio. rewrite Hempty. reflexivity.
  - intros p url output_dir info Hdirs Hinfo Hformats Hdump.
    assert (Hrun : extract_audio_from_stream float_of_str p url output_dir []
                   = (Returns None,
                      [MakeDirs output_dir; WriteDataJson formats; PrintFormats formats;
                       PrintNoSuitableFormats])).
    { unfold extract_audio_from_stream, get_available_formats, try_except, check,
        emit, lift, mbind, prog_bind, mret, prog_ret.
      rewrite Hdirs. cbn. rewrite Hinfo. rewrite Hformats, Hdump. cbn.
      rewrite Hempty. reflexivity. }
    split; [exact Hrun |].
    rewrite Hrun. intros opts u Hin. cbn in Hin.
    repeat destruct Hin as [Hin | Hin]; try discriminate Hin. exact Hin.
Qed.

(** A list that holds a single format, without any audio. *)
Lemma no_suitable_format_witness :
  select_best_audio float_of_digits [video_only] = Returns None
  /\ extract_audio_from_stream float_of_digits (provider [video_only])
       "https://youtu.be/x" "downloads" []
     = (Returns None,
        [MakeDirs "downloads"; WriteDataJson [video_only]; PrintFormats [video_only];
         PrintNoSuitableFormats]).
Proof.
  destruct (no_suitable_format float_of_digits [video_only]) as [Hselect Hrun].
  - repeat constructor.
  - split; [exact Hselect |].
    apply (Hrun (provider [video_only]) "https://youtu.be/x" "downloads"
             (Some [video_only])); reflexivity.
Defined.




(** * The transcript and its segments *)

(** C7, as stated, does not hold of the join of line 118.  A per-chunk
    result may hold spaces: the list of the single result "hello world"
    joins into a transcript that splits into two segments.  And the empty
    list of results joins into the empty transcript, which splits into one
    (empty) segment. *)
Lemma resplit_miscounts_results :
  (length ["hello world"] = 1%nat
   /\ length (split " " (join " " ["hello world"])) = 2%nat)
  /\ (length (@nil string) = 0%nat
      /\ length (split " " (join " " [])) = 1%nat).
Proof.
  repeat split; vm_compute; reflexivity.
Qed.

(** C7, amended.  For a list of per-chunk results that is not empty and in
    which no result holds a space, splitting on the space the transcript
    that line 118 makes of the list gives the list back, hence as many
    segments as there are results. *)
Theorem resplit_recovers_results (full_text : list string) :
  full_text <> [] ->
  Forall (fun chunk_text => count_char " " chunk_text = 0%nat) full_text ->
  split " " (join " " full_text) = full_text
  /\ length (split " " (join " " full_text)) = length full_text.
Proof.
  intros Hne Hclean.
  assert (Hsplit : split " " (join " " full_text) = full_text)
    by (apply split_join; assumption).
  split; [exact Hsplit | rewrite Hsplit; reflexivity].
Qed.

(** Three results, the second being the "unclear" marker. *)
Lemma resplit_recovers_results_witness :
  split " " (join " " ["a"; unclear_sentinel; "c"]) = ["a"; unclear_sentinel; "c"]
  /\ length (split " " (join " " ["a"; unclear_sentinel; "c"])) = 3%nat.
Proof.
  apply (resplit_recovers_results ["a"; unclear_sentinel; "c"]).
  - discriminate.
  - repeat constructor.
Defined.

(** * Failures of a whole transcription *)

(** C8.  Whenever a run of the whole-file transcriber sends a request to the
    backend and the backend answers "cannot decode speech" or fails the
    request, the call returns [None]: it does not raise. *)
Theorem whole_file_failure_returns_None w path s r s' audio :
  transcribe_kannada_audio w path s = (r, s') ->
  requests s' = (requests s ++ [audio])%list ->
  recognition_failure (backend w (requests s) audio) = true ->
  r = Returns None.
Proof.
  unfold transcribe_kannada_audio, convert_to_wav, try_except, enter, raise,
    set_position, adjust_for_ambient_noise, record, recognize_google, print,
    mbind, prog_bind, mret, prog_ret.
  intros Hrun Hreq Hfail.
  repeat match type of Hrun with
         | context [if ?b then _ else _] => destruct b eqn:?
         | context [match export_error ?a ?b ?c with _ => _ end] =>
             destruct (export_error a b c) as [[] |] eqn:?
         | context [match enter_error ?f with _ => _ end] =>
             destruct (enter_error f) as [[] |] eqn:?
         | _ => progress cbn in Hrun
         end;
    try (injection Hrun as <- <-; cbn in Hreq;
         solve [ exfalso; exact (app_one_neq _ _ Hreq) | reflexivity ]);
    try match goal with H : negb _ = _ |- _ => solve [cbn in H; discriminate H] end;
    match type of Hrun with
    | context [backend ?w' ?h ?a] => destruct (backend w' h a) as [text | e] eqn:Hb
    end;
    try destruct e; cbn in Hrun; injection Hrun as <- <-; cbn in Hreq;
    apply app_inv_head in Hreq; injection Hreq as <-;
    rewrite Hb in Hfail; try discriminate Hfail; reflexivity.
Qed.

(** A file on which the backend cannot decode speech, and one for which the
    request fails. *)
Lemma whole_file_failure_returns_None_witness :
  fst (transcribe_kannada_audio
         (studio (readable 12) (always (Raises UnknownValueError)))
         "talk.wav" initial) = Returns None
  /\ fst (transcribe_kannada_audio
            (studio (readable 12) (always (Raises (RequestError "quota exceeded"))))
            "talk.mp3" initial) = Returns None.
Proof.
  split.
  - set (w := studio (readable 12) (always (Raises UnknownValueError))).
    apply (whole_file_failure_returns_None w "talk.wav" initial _
             (snd (transcribe_kannada_audio w "talk.wav" initial))
             (mkAudioData (0 + (1 # 2)) None)).
    + vm_compute. reflexivity.
    + vm_compute. reflexivity.
    + reflexivity.
  - set (w := studio (readable 12) (always (Raises (RequestError "quota exceeded")))).
    apply (whole_file_failure_returns_None w "talk.mp3" initial _
             (snd (transcribe_kannada_audio w "talk.mp3" initial))
             (mkAudioData (0 + (1 # 2)) None)).
    + vm_compute. reflexivity.
    + vm_compute. reflexivity.
    + reflexivity.
Defined.

(** C9, as stated, does not hold.  A run on a file that opens fails as a
    whole all the same; and the caller of a run on a file that does not open
    receives [None] whatever the reason was, not the reason. *)
Lemma whole_run_fails_on_readable_file :
  enter_error (readable 10) = None
  /\ fst (transcribe_long_kannada_audio
            (studio (readable 10) (always (Returns "text"))) "talk.wav" 30 initial)
     = Returns None
  /\ fst (transcribe_long_kannada_audio
            (studio (unreadable "No such file") (always (Returns "text")))
            "talk.wav" 30 initial)
     = fst (transcribe_long_kannada_audio
              (studio (unreadable "Permission denied") (always (Returns "text")))
              "talk.wav" 30 initial).
Proof.
  repeat split; vm_compute; reflexivity.
Qed.

(** C9, amended.  A chunked run on a file that cannot be opened is aborted
    before any request to the backend: the reason is printed and the caller
    receives [None].  More generally no run raises an [Exception] to its
    caller, and a run that returns [None] is a run in which an [Exception]
    was caught, whose reason is the last line printed. *)
Theorem whole_run_failure w path chunk_duration :
  let f := audio_file w path in
  let run := transcribe_long_kannada_audio w path chunk_duration initial in
  (forall e,
     enter_error f = Some e -> is_Exception e = true ->
     run = (Returns None, mkState 0 [] [ErrorProcessingAudio e]))
  /\ contained (fst run)
  /\ (forall s',
        run = (Returns None, s') ->
        exists e out,
          is_Exception e = true
          /\ stdout s' = (out ++ [ErrorProcessingAudio e])%list).
Proof.
  intros f run. split; [| split].
  - intros e Henter Hexc.
    exact (transcribe_long_not_opened w path chunk_duration e Henter Hexc).
  - apply transcribe_long_contained.
  - intros s' Hrun.
    exact (transcribe_long_None_printed w path chunk_duration s' Hrun).
Qed.

(** A file that does not open. *)
Lemma whole_run_failure_witness :
  transcribe_long_kannada_audio
    (studio (unreadable "No such file") (always (Returns "text")))
    "talk.wav" 30 initial
  = (Returns None, mkState 0 [] [ErrorProcessingAudio (OtherException "No such file")]).
Proof.
  apply (proj1 (whole_run_failure
                  (studio (unreadable "No such file") (always (Returns "text")))
                  "talk.wav" 30)); reflexivity.
Defined.

(** * Recordings shorter than a second *)

(** C10.  On a recording of three quarters of a second that opens, with the
    default chunk duration, the function makes no request to the backend, as
    the property says, but it does not return the empty string: the read of
    [duration_seconds] at line 94 raises, the handler prints the error and
    the function returns [None]. *)
Theorem short_audio_returns_None :
  transcribe_long_kannada_audio
    (studio (readable (3 # 4)) (always (Returns "text"))) "blip.wav" 30 initial
  = (Returns None,
     mkState 0 [] [ErrorProcessingAudio (no_attribute "duration_seconds")]).
Proof.
  vm_compute. reflexivity.
Qed.

(** * Further properties of audiotranslate.py *)

(** ** Paths *)

Lemma lower_append (a b : string) : lower (a +:+ b) = lower a +:+ lower b.
Proof.
  induction a as [| c a IH]; [reflexivity |].
  rewrite append_String. cbn [lower]. rewrite IH, append_String. reflexivity.
Qed.

Lemma length_append (a b : string) :
  String.length (a +:+ b) = (String.length a + String.length b)%nat.
Proof.
  induction a as [| c a IH]; [reflexivity |].
  rewrite append_String. cbn [String.length]. rewrite IH. reflexivity.
Qed.

Lemma substring_all (b : string) : String.substring 0 (String.length b) b = b.
Proof.
  induction b as [| c b IH]; [reflexivity |]. cbn. rewrite IH. reflexivity.
Qed.

Lemma substring_append (a b : string) :
  String.substring (String.length a) (String.length b) (a +:+ b) = b.
Proof.
  induction a as [| c a IH].
  - rewrite append_empty. apply substring_all.
  - rewrite append_String. cbn [String.length String.substring]. exact IH.
Qed.

Lemma endswith_append (a b : string) : endswith (a +:+ b) b = true.
Proof.
  unfold endswith. rewrite length_append.
  replace (String.length a + String.length b - String.length b)%nat
    with (String.length a) by lia.
  rewrite substring_append, String.eqb_refl.
  apply andb_true_iff. split; [apply Nat.leb_le; lia | reflexivity].
Qed.

(** X1.  The path that [transcribe_kannada_audio] converts to is a WAV path
    itself, and it is never the path of the input: the conversion does not
    write over the file it reads. *)
Theorem wav_path_is_fresh (audio_file_path : string) :
  endswith (lower audio_file_path) ".wav" = false ->
  let wav_path := rsplit_dot_head audio_file_path +:+ ".wav" in
  endswith (lower wav_path) ".wav" = true /\ wav_path <> audio_file_path.
Proof.
  intros Hext wav_path.
  assert (Hwav : endswith (lower wav_path) ".wav" = true).
  { unfold wav_path. rewrite lower_append. apply endswith_append. }
  split; [exact Hwav |].
  intros Heq. rewrite Heq in Hwav. congruence.
Qed.

Lemma wav_path_is_fresh_witness :
  endswith (lower (rsplit_dot_head "talks/day.1.MP3" +:+ ".wav")) ".wav" = true
  /\ rsplit_dot_head "talks/day.1.MP3" +:+ ".wav" <> "talks/day.1.MP3".
Proof.
  apply (wav_path_is_fresh "talks/day.1.MP3"). reflexivity.
Defined.

(** ** The whole-file transcriber *)

Ltac split_whole_file Hrun :=
  unfold transcribe_kannada_audio, convert_to_wav, try_except, enter, raise,
    set_position, adjust_for_ambient_noise, record, recognize_google, print,
    mbind, prog_bind, mret, prog_ret in Hrun;
  repeat match type of Hrun with
         | context [if ?b then _ else _] => destruct b eqn:?
         | context [match export_error ?w ?a ?b with _ => _ end] =>
             destruct (export_error w a b) as [? |] eqn:?
         | context [match enter_error ?f with _ => _ end] =>
             destruct (enter_error f) as [? |] eqn:?
         | context [match backend ?w ?h ?a with _ => _ end] =>
             destruct (backend w h a) as [? | ?] eqn:?
         | context [match ?e with UnknownValueError => _ | _ => _ end] =>
             is_var e; destruct e
         | _ => progress cbn in Hrun
         end.

(** Nothing but what is outside [Exception] leaves the whole-file
    transcriber, and it sends the backend one request at most. *)
Lemma transcribe_kannada_audio_contained w path s r s' :
  transcribe_kannada_audio w path s = (r, s') ->
  contained r
  /\ (requests s' = requests s
      \/ exists audio,
           requests s' = (requests s ++ [audio])%list /\ duration audio = None).
Proof.
  intros Hrun. split_whole_file Hrun;
    injection Hrun as <- <-;
    (split; [first [exact I | reflexivity] |]);
    first [ left; reflexivity | right; eexists; split; reflexivity ].
Qed.

(** X2.  Whatever the studio does, [transcribe_kannada_audio] raises nothing
    that is an [Exception], and it sends the backend at most one request,
    for audio recorded up to the end of the file. *)
Theorem whole_file_contains_exceptions w path s :
  contained (fst (transcribe_kannada_audio w path s))
  /\ (length (requests (snd (transcribe_kannada_audio w path s)))
      <= S (length (requests s)))%nat
  /\ forall audio,
       In audio (requests (snd (transcribe_kannada_audio w path s))) ->
       In audio (requests s) \/ duration audio = None.
Proof.
  destruct (transcribe_kannada_audio w path s) as [r s'] eqn:Hrun.
  destruct (transcribe_kannada_audio_contained w path s r s' Hrun)
    as [Hsafe [Hsame | (audio & Hone & Hend)]]; cbn [fst snd].
  - rewrite Hsame. repeat split; [exact Hsafe | lia | auto].
  - rewrite Hone. repeat split; [exact Hsafe | rewrite length_app; cbn; lia |].
    intros a [Hin | [<- | []]]%in_app_or; auto.
Qed.

(** X3.  When the conversion, if one is needed, succeeds, the file opens and
    the backend returns a text, [transcribe_kannada_audio] returns that very
    text, after a single request. *)
Theorem whole_file_returns_backend_text w path s text :
  (endswith (lower path) ".wav" = false ->
   export_error w path (wav_path_of path) = None) ->
  enter_error (audio_file w (wav_path_of path)) = None ->
  (forall audio, backend w (requests s) audio = Returns text) ->
  fst (transcribe_kannada_audio w path s) = Returns (Some text)
  /\ length (requests (snd (transcribe_kannada_audio w path s)))
     = S (length (requests s)).
Proof.
  unfold wav_path_of. intros Hconv Henter Htext.
  unfold transcribe_kannada_audio, convert_to_wav, try_except, enter, raise,
    set_position, adjust_for_ambient_noise, record, recognize_google, print,
    mbind, prog_bind, mret, prog_ret.
  destruct (endswith (lower path) ".wav"); cbn.
  - rewrite Henter. cbn. rewrite Htext. cbn.
    split; [reflexivity | rewrite length_app; cbn; lia].
  - rewrite (Hconv eq_refl). cbn. rewrite Henter. cbn. rewrite Htext. cbn.
    split; [reflexivity | rewrite length_app; cbn; lia].
Qed.

(** An MP3 file for which the backend returns a greeting. *)
Lemma whole_file_returns_backend_text_witness :
  fst (transcribe_kannada_audio (studio (readable 12) (always (Returns "ಹಲೋ")))
         "talk.mp3" initial) = Returns (Some "ಹಲೋ")
  /\ length (requests (snd (transcribe_kannada_audio
                              (studio (readable 12) (always (Returns "ಹಲೋ")))
                              "talk.mp3" initial))) = 1%nat.
Proof.
  apply (whole_file_returns_backend_text
           (studio (readable 12) (always (Returns "ಹಲೋ"))) "talk.mp3" initial "ಹಲೋ").
  - reflexivity.
  - reflexivity.
  - reflexivity.
Defined.

(** X4.  When the path has not the WAV extension and the conversion fails,
    [transcribe_kannada_audio] returns [None] after printing the error of
    the conversion: no file is opened and the backend is not asked. *)
Theorem failed_conversion_ends_transcription w path s e :
  endswith (lower path) ".wav" = false ->
  export_error w path (rsplit_dot_head path +:+ ".wav") = Some e ->
  is_Exception e = true ->
  transcribe_kannada_audio w path s
  = (Returns None,
     mkState (position s) (requests s)
       (stdout s ++ [ConvertingToWav; ErrorConvertingAudio e])%list).
Proof.
  intros Hext Hexport Hexc.
  unfold transcribe_kannada_audio, convert_to_wav, try_except, raise, print,
    mbind, prog_bind, mret, prog_ret.
  rewrite Hext. cbn. rewrite Hexport. cbn. rewrite Hexc. cbn.
  rewrite <- app_assoc. reflexivity.
Qed.

(** A studio without converter, and an MP3 file. *)
Lemma failed_conversion_ends_transcription_witness :
  transcribe_kannada_audio
    (no_ffmpeg (readable 12) "ffmpeg not found" (always (Returns "text")))
    "talk.mp3" initial
  = (Returns None,
     mkState 0 []
       [ConvertingToWav; ErrorConvertingAudio (OtherException "ffmpeg not found")]).
Proof.
  apply (failed_conversion_ends_transcription
           (no_ffmpeg (readable 12) "ffmpeg not found" (always (Returns "text")))
           "talk.mp3" initial (OtherException "ffmpeg not found")); reflexivity.
Defined.

(** ** The chunked transcriber *)

(** X5.  Whatever the studio does, [transcribe_long_kannada_audio] raises
    nothing that is an [Exception], and the chunks it sends to the backend
    are the first ones of the sequence planned from the duration it has
    read, in order: no chunk is sent twice, skipped, or sent after a later
    one.  When the duration cannot be read no chunk is sent at all. *)
Theorem chunked_requests_are_a_prefix w path chunk_duration :
  let f := audio_file w path in
  let run := transcribe_long_kannada_audio w path chunk_duration initial in
  contained (fst run)
  /\ (forall audio_duration offsets,
        duration_seconds f = Returns audio_duration ->
        range 0 (int audio_duration) chunk_duration = Returns offsets ->
        exists n,
          requests (snd run)
          = map (chunk_at audio_duration chunk_duration) (take n offsets))
  /\ ((forall audio_duration, duration_seconds f <> Returns audio_duration) ->
      requests (snd run) = []).
Proof.
  intros f run.
  pose proof (transcribe_long_requests w path chunk_duration) as Hreq.
  cbn zeta in Hreq. fold f in Hreq. fold run in Hreq.
  split; [apply transcribe_long_contained | split].
  - intros audio_duration offsets Hread Hrange.
    rewrite Hread, Hrange in Hreq. exact Hreq.
  - intros Hread.
    destruct (duration_seconds f) as [audio_duration | e]; [| exact Hreq].
    destruct (Hread audio_duration eq_refl).
Qed.

(** An object with a duration of 100 seconds on which the seek to the second
    60 fails, and an audio file of the library. *)
Lemma chunked_requests_are_a_prefix_witness :
  (exists n,
     requests (snd (transcribe_long_kannada_audio
                      (studio (seekable_but_at 100 60 "Illegal seek")
                         (always (Returns "text"))) "talk.wav" 30 initial))
     = map (chunk_at 100 30) (take n [0; 30; 60; 90]%Z))
  /\ requests (snd (transcribe_long_kannada_audio
                      (studio (readable 100) (always (Returns "text")))
                      "talk.wav" 30 initial)) = [].
Proof.
  split.
  - apply (proj1 (proj2 (chunked_requests_are_a_prefix
                           (studio (seekable_but_at 100 60 "Illegal seek")
                              (always (Returns "text"))) "talk.wav" 30))
             100%Q [0; 30; 60; 90]%Z).
    + reflexivity.
    + vm_compute. reflexivity.
  - apply (proj2 (proj2 (chunked_requests_are_a_prefix
                           (studio (readable 100) (always (Returns "text")))
                           "talk.wav" 30))).
    intros audio_duration. discriminate.
Defined.

(** X6.  On an [AudioFile] of the library, whether it opens or not,
    [transcribe_long_kannada_audio] returns [None] whatever the chunk
    duration and the backend are: it prints one error, that of the opening or
    the [AttributeError] of line 94, and asks the backend nothing. *)
Theorem chunked_transcriber_always_fails w path chunk_duration failure d :
  audio_file w path = sr_AudioFile failure d ->
  (forall e, failure = Some e -> is_Exception e = true) ->
  transcribe_long_kannada_audio w path chunk_duration initial
  = (Returns None,
     mkState 0 []
       [ErrorProcessingAudio
          (default (no_attribute "duration_seconds") failure)]).
Proof.
  intros Hfile Hexc.
  destruct failure as [e |]; cbn [default].
  - apply transcribe_long_not_opened; [rewrite Hfile; reflexivity | auto].
  - apply transcribe_long_no_duration; try (rewrite Hfile; reflexivity).
    reflexivity.
Qed.

(** A recording of one hour, with chunks of one second and a backend that
    answers. *)
Lemma chunked_transcriber_always_fails_witness :
  transcribe_long_kannada_audio
    (studio (readable 3600) (always (Returns "text"))) "talk.wav" 1 initial
  = (Returns None,
     mkState 0 [] [ErrorProcessingAudio (no_attribute "duration_seconds")]).
Proof.
  apply (chunked_transcriber_always_fails
           (studio (readable 3600) (always (Returns "text"))) "talk.wav" 1 None 3600).
  - reflexivity.
  - discriminate.
Defined.

(** * Further properties: the command line of audiotranslate.py *)




(** X11.  A file of more than 10 MiB is not transcribed.  [main] hands it to
    the chunked transcriber; when it is an [AudioFile] of the library that
    opens, the read of [duration_seconds] raises, and [main] prints the
    notice for large files, the error and then that the transcription
    failed, without any request to the backend. *)
Theorem main_fails_on_large_files w d audio_path file_size e :
  path_exists d audio_path = true ->
  getsize d audio_path = Returns file_size ->
  (10 * 1024 * 1024 < file_size)%Z ->
  enter_error (audio_file w audio_path) = None ->
  duration_seconds (audio_file w audio_path) = Raises e ->
  is_Exception e = true ->
  main w d (Returns audio_path)
  = mkReport (Returns tt)
      [LargeFileDetected; Printed (ErrorProcessingAudio e); TranscriptionFailed] [].
Proof.
  intros Hexists Hsize Hlarge Henter Hread Hexc.
  unfold main. rewrite Hexists. cbn [negb]. rewrite Hsize.
  unfold transcribe_and_report.
  destruct (Z.ltb_spec (10 * 1024 * 1024) file_size); [| lia].
  rewrite (transcribe_long_no_duration w audio_path 30 e Henter Hread Hexc).
  reflexivity.
Qed.

(** A recording of one hour in a file of 100 MiB. *)
Lemma main_fails_on_large_files_witness :
  main (studio (readable 3600) (always (Returns "text")))
       (disk (100 * 1024 * 1024)) (Returns "talk.wav")
  = mkReport (Returns tt)
      [LargeFileDetected;
       Printed (ErrorProcessingAudio (no_attribute "duration_seconds"));
       TranscriptionFailed] [].
Proof.
  apply (main_fails_on_large_files
           (studio (readable 3600) (always (Returns "text")))
           (disk (100 * 1024 * 1024)) "talk.wav" (100 * 1024 * 1024)%Z
           (no_attribute "duration_seconds")); reflexivity.
Defined.

(** * Further properties of ytb.py *)

(** ** The formats kept and the selection *)

Lemma audio_formats_of_nil_iff (formats : list format) :
  audio_formats_of formats = []
  <-> Forall (fun f => audio_only f = false /\ has_audio f = false) formats.
Proof.
  split.
  - intros Hkept.
    assert (Hnone : Forall (fun f => audio_only f = false) formats).
    { apply filter_nil_iff. unfold audio_formats_of in Hkept.
      destruct (List.filter audio_only formats); [reflexivity | discriminate]. }
    rewrite (audio_formats_of_fallback formats Hnone) in Hkept.
    apply filter_nil_iff in Hkept.
    rewrite List.Forall_forall in *. intros f Hf. auto.
  - intros Hnone.
    rewrite audio_formats_of_fallback.
    + apply filter_nil_iff. eapply List.Forall_impl; [| exact Hnone]. intros f [_ H]. exact H.
    + eapply List.Forall_impl; [| exact Hnone]. intros f [H _]. exact H.
Qed.

Lemma sorted_reverse_nil {A : Type} (key : A -> outcome Q) (l : list A) :
  sorted_reverse key l = Returns [] -> l = [].
Proof.
  unfold sorted_reverse. intros H.
  destruct (decorate key l) as [kl |] eqn:Hdec; [| discriminate].
  injection H as H.
  destruct (decorate_Returns key l kl Hdec) as [Hmap _].
  pose proof (Permutation_map snd (sort_desc_perm kl)) as Hperm.
  rewrite H, Hmap in Hperm. apply Permutation_nil in Hperm. exact Hperm.
Qed.

(** X12.  The selection ends on [None] exactly when the list holds no
    audio-only format and no format with audio; in particular a list that
    holds one never makes [extract_audio_from_stream] report that no
    suitable format was found. *)
Theorem no_suitable_format_iff float_of_str (formats : list format) :
  select_best_audio float_of_str formats = Returns None
  <-> Forall (fun f => audio_only f = false /\ has_audio f = false) formats.
Proof.
  rewrite <- audio_formats_of_nil_iff. unfold select_best_audio, best_audio.
  split.
  - destruct (audio_formats_of formats) as [| f kept] eqn:Hkept; [reflexivity |].
    destruct (sorted_reverse (abr_key float_of_str) (f :: kept)) as [[| b rest] | e];
      discriminate.
  - intros ->. reflexivity.
Qed.

(** X13.  Every format kept by [get_available_formats] comes from the list
    of the provider, and the formats kept are all audio-only, or else the
    list holds no audio-only format and all the formats kept have audio: a
    format with a video track is kept only when no audio-only format is
    offered. *)
Theorem kept_formats_are_homogeneous (formats : list format) :
  (forall f, In f (audio_formats_of formats) -> In f formats)
  /\ (Forall (fun f => audio_only f = true) (audio_formats_of formats)
      \/ (Forall (fun f => audio_only f = false) formats
          /\ Forall (fun f => has_audio f = true) (audio_formats_of formats))).
Proof.
  destruct (List.filter audio_only formats) as [| f0 kept] eqn:Hfilter.
  - assert (Hnone : Forall (fun f => audio_only f = false) formats)
      by (apply filter_nil_iff, Hfilter).
    rewrite (audio_formats_of_fallback formats Hnone). split.
    + intros f [Hin _]%filter_In. exact Hin.
    + right. split; [exact Hnone |].
      apply List.Forall_forall. intros f [_ H]%filter_In. exact H.
  - rewrite audio_formats_of_audio_only by (rewrite Hfilter; discriminate). split.
    + intros f [Hin _]%filter_In. exact Hin.
    + left. apply List.Forall_forall. intros f [_ H]%filter_In. exact H.
Qed.

Lemma decorate_Raises {A : Type} (key : A -> outcome Q) (l : list A) (e : exn) :
  decorate key l = Raises e -> exists x, In x l /\ key x = Raises e.
Proof.
  induction l as [| x l IH]; cbn; [discriminate |].
  destruct (key x) as [k | e'] eqn:Hk.
  - destruct (decorate key l) as [kl | e'']; [discriminate |].
    intros H. injection H as ->. destruct (IH eq_refl) as (y & Hin & Hy). eauto.
  - intros H. injection H as ->. eauto.
Qed.

Lemma decorate_Raises_intro {A : Type} (key : A -> outcome Q) (l : list A) x e :
  In x l -> key x = Raises e -> exists e', decorate key l = Raises e'.
Proof.
  induction l as [| y l IH]; intros Hin Hx; [destruct Hin |].
  cbn. destruct (key y) as [k | e'] eqn:Hk; [| eauto].
  destruct Hin as [-> | Hin]; [congruence |].
  destruct (IH Hin Hx) as (e'' & ->). eauto.
Qed.

(** X14.  The selection raises exactly when the sort key of one of the
    formats kept cannot be computed, and what it raises is the exception of
    such a key: one format with a bitrate that [float] rejects makes the
    whole selection fail, whatever the other formats are. *)
Theorem selection_raises_iff float_of_str (formats : list format) :
  (forall e,
     select_best_audio float_of_str formats = Raises e ->
     exists f, In f (audio_formats_of formats) /\ abr_key float_of_str f = Raises e)
  /\ (forall f e,
        In f (audio_formats_of formats) ->
        abr_key float_of_str f = Raises e ->
        exists e', select_best_audio float_of_str formats = Raises e').
Proof.
  unfold select_best_audio, best_audio. split.
  - intros e.
    destruct (audio_formats_of formats) as [| f0 kept] eqn:Hkept; [discriminate |].
    destruct (sorted_reverse (abr_key float_of_str) (f0 :: kept)) as [[| b rest] | e']
      eqn:Hsorted.
    + apply sorted_reverse_nil in Hsorted. discriminate Hsorted.
    + discriminate.
    + intros H. injection H as ->. unfold sorted_reverse in Hsorted.
      destruct (decorate (abr_key float_of_str) (f0 :: kept)) as [kl | e''] eqn:Hdec;
        [discriminate |].
      injection Hsorted as ->. exact (decorate_Raises _ _ _ Hdec).
  - intros f e Hin Hkey.
    destruct (decorate_Raises_intro (abr_key float_of_str) _ f e Hin Hkey) as (e' & Hdec).
    exists e'. unfold sorted_reverse. rewrite Hdec.
    destruct (audio_formats_of formats); [destruct Hin | reflexivity].
Qed.

(** A format of known bitrate next to one whose bitrate is not a number. *)
Lemma selection_raises_iff_witness :
  exists e', select_best_audio float_of_digits [m4a_128; opus_garbled] = Raises e'.
Proof.
  apply (proj2 (selection_raises_iff float_of_digits [m4a_128; opus_garbled])
           opus_garbled (ValueError "could not convert string to float")).
  - right. left. reflexivity.
  - reflexivity.
Defined.

(** ** The extraction *)

Ltac unfold_extraction :=
  unfold extract_audio_from_stream, get_available_formats, getitem, try_except,
    check, emit, lift, raise, mbind, prog_bind, mret, prog_ret.

(** X15.  When the provider answers, the selection returns a format with an
    identifier and the download succeeds, [extract_audio_from_stream] makes
    one download, of the format selected and to the template
    [output_dir/audio_stream_<timestamp>], and returns that template followed
    by [".mp3"]. *)
Theorem extraction_downloads_the_selected_format
    float_of_str p url output_dir info best format_id :
  let output_path := os_path_join output_dir ("audio_stream_" +:+ timestamp p) in
  let opts := mkOpts format_id output_path "/usr/local/bin/ffmpeg" in
  makedirs_error p output_dir = None ->
  extract_info p url = Returns info ->
  dump_error p (default [] info) = None ->
  select_best_audio float_of_str (default [] info) = Returns (Some best) ->
  best !! "format_id" = Some format_id ->
  download_error p opts url = None ->
  fst (extract_audio_from_stream float_of_str p url output_dir [])
  = Returns (Some (output_path +:+ ".mp3"))
  /\ downloads (snd (extract_audio_from_stream float_of_str p url output_dir []))
     = [(opts, url)].
Proof.
  intros output_path opts Hdirs Hinfo Hdump Hbest Hid Hdown.
  unfold select_best_audio in Hbest. unfold_extraction.
  rewrite Hdirs. cbn. rewrite Hinfo. cbn. rewrite Hdump. cbn.
  rewrite Hbest. cbn. rewrite Hid. cbn.
  fold output_path. fold opts. rewrite Hdown. cbn.
  split; reflexivity.
Qed.

(** Two audio-only formats of 128 kbit/s: the first is downloaded. *)
Lemma extraction_downloads_the_selected_format_witness :
  fst (extract_audio_from_stream float_of_digits
         (provider [mp4_96; m4a_128; opus_128]) "https://youtu.be/x" "downloads" [])
  = Returns (Some "downloads/audio_stream_20240101_120000.mp3")
  /\ downloads (snd (extract_audio_from_stream float_of_digits
                       (provider [mp4_96; m4a_128; opus_128])
                       "https://youtu.be/x" "downloads" []))
     = [(mkOpts (PyStr "140") "downloads/audio_stream_20240101_120000"
           "/usr/local/bin/ffmpeg", "https://youtu.be/x")].
Proof.
  apply (extraction_downloads_the_selected_format float_of_digits
           (provider [mp4_96; m4a_128; opus_128]) "https://youtu.be/x" "downloads"
           (Some [mp4_96; m4a_128; opus_128]) m4a_128 (PyStr "140")).
  - reflexivity.
  - reflexivity.
  - reflexivity.
  - vm_compute. reflexivity.
  - reflexivity.
  - reflexivity.
Defined.

(** X16.  When the format selected has no identifier,
    [extract_audio_from_stream] raises [KeyError]: the exception is not
    caught, nothing is downloaded and no path is returned. *)
Theorem extraction_needs_a_format_id float_of_str p url output_dir info best :
  makedirs_error p output_dir = None ->
  extract_info p url = Returns info ->
  dump_error p (default [] info) = None ->
  select_best_audio float_of_str (default [] info) = Returns (Some best) ->
  best !! "format_id" = None ->
  fst (extract_audio_from_stream float_of_str p url output_dir [])
  = Raises (KeyError "format_id")
  /\ downloads (snd (extract_audio_from_stream float_of_str p url output_dir [])) = [].
Proof.
  intros Hdirs Hinfo Hdump Hbest Hid.
  unfold select_best_audio in Hbest. unfold_extraction.
  rewrite Hdirs. cbn. rewrite Hinfo. cbn. rewrite Hdump. cbn.
  rewrite Hbest. cbn. rewrite Hid. cbn.
  split; reflexivity.
Qed.

(** A list whose best audio-only format has no identifier. *)
Lemma extraction_needs_a_format_id_witness :
  fst (extract_audio_from_stream float_of_digits
         (provider [m4a_128; anonymous_audio]) "https://youtu.be/x" "downloads" [])
  = Raises (KeyError "format_id")
  /\ downloads (snd (extract_audio_from_stream float_of_digits
                       (provider [m4a_128; anonymous_audio])
                       "https://youtu.be/x" "downloads" [])) = [].
Proof.
  apply (extraction_needs_a_format_id float_of_digits
           (provider [m4a_128; anonymous_audio]) "https://youtu.be/x" "downloads"
           (Some [m4a_128; anonymous_audio]) anonymous_audio).
  - reflexivity.
  - reflexivity.
  - reflexivity.
  - vm_compute. reflexivity.
  - reflexivity.
Defined.

(** X17.  When the download raises an [Exception],
    [extract_audio_from_stream] prints it and returns [None], after that
    single attempt. *)
Theorem failed_download_returns_None
    float_of_str p url output_dir info best format_id e :
  let output_path := os_path_join output_dir ("audio_stream_" +:+ timestamp p) in
  let opts := mkOpts format_id output_path "/usr/local/bin/ffmpeg" in
  makedirs_error p output_dir = None ->
  extract_info p url = Returns info ->
  dump_error p (default [] info) = None ->
  select_best_audio float_of_str (default [] info) = Returns (Some best) ->
  best !! "format_id" = Some format_id ->
  download_error p opts url = Some e ->
  is_Exception e = true ->
  fst (extract_audio_from_stream float_of_str p url output_dir []) = Returns None
  /\ downloads (snd (extract_audio_from_stream float_of_str p url output_dir []))
     = [(opts, url)]
  /\ last (snd (extract_audio_from_stream float_of_str p url output_dir []))
     = Some (PrintErrorExtracting e).
Proof.
  intros output_path opts Hdirs Hinfo Hdump Hbest Hid Hdown Hexc.
  unfold select_best_audio in Hbest. unfold_extraction.
  rewrite Hdirs. cbn. rewrite Hinfo. cbn. rewrite Hdump. cbn.
  rewrite Hbest. cbn. rewrite Hid. cbn.
  fold output_path. fold opts. rewrite Hdown. cbn. rewrite Hexc. cbn.
  repeat split; reflexivity.
Qed.

(** A provider on which downloads fail. *)
Lemma failed_download_returns_None_witness :
  fst (extract_audio_from_stream float_of_digits
         (offline [m4a_128] "HTTP Error 403") "https://youtu.be/x" "downloads" [])
  = Returns None
  /\ downloads (snd (extract_audio_from_stream float_of_digits
                       (offline [m4a_128] "HTTP Error 403")
                       "https://youtu.be/x" "downloads" []))
     = [(mkOpts (PyStr "140") "downloads/audio_stream_20240101_120000"
           "/usr/local/bin/ffmpeg", "https://youtu.be/x")]
  /\ last (snd (extract_audio_from_stream float_of_digits
                  (offline [m4a_128] "HTTP Error 403")
                  "https://youtu.be/x" "downloads" []))
     = Some (PrintErrorExtracting (OtherException "HTTP Error 403")).
Proof.
  apply (failed_download_returns_None float_of_digits
           (offline [m4a_128] "HTTP Error 403") "https://youtu.be/x" "downloads"
           (Some [m4a_128]) m4a_128 (PyStr "140") (OtherException "HTTP Error 403")).
  - reflexivity.
  - reflexivity.
  - reflexivity.
  - vm_compute. reflexivity.
  - reflexivity.
  - reflexivity.
  - reflexivity.
Defined.

(** X18.  When the probe of the provider, or the writing of [data.json]
    that follows it, raises an [Exception], [extract_audio_from_stream]
    reports that no suitable format was found and returns [None] without any
    download - whatever formats the provider has. *)
Theorem failed_probe_is_reported_as_no_format float_of_str p url output_dir e :
  makedirs_error p output_dir = None ->
  extract_info p url = Raises e
  \/ (exists info,
        extract_info p url = Returns info /\ dump_error p (default [] info) = Some e) ->
  is_Exception e = true ->
  let run := extract_audio_from_stream float_of_str p url output_dir [] in
  fst run = Returns None
  /\ downloads (snd run) = []
  /\ In (PrintErrorGettingFormats e) (snd run)
  /\ last (snd run) = Some PrintNoSuitableFormats.
Proof.
  intros Hdirs Hprobe Hexc run. unfold run. unfold_extraction.
  rewrite Hdirs. cbn.
  destruct Hprobe as [Hinfo | (info & Hinfo & Hdump)].
  - rewrite Hinfo. cbn. rewrite Hexc. cbn. repeat split; auto.
  - rewrite Hinfo. cbn. rewrite Hdump. cbn. rewrite Hexc. cbn.
    repeat split; auto 6.
Qed.

(** A provider that cannot be reached, and one that lists a good format in
    a directory where [data.json] cannot be written. *)
Lemma failed_probe_is_reported_as_no_format_witness :
  fst (extract_audio_from_stream float_of_digits (unreachable "Network is unreachable")
         "https://youtu.be/x" "downloads" []) = Returns None
  /\ fst (extract_audio_from_stream float_of_digits
            (read_only [m4a_128] "Read-only file system")
            "https://youtu.be/x" "downloads" []) = Returns None.
Proof.
  split.
  - apply (failed_probe_is_reported_as_no_format float_of_digits
             (unreachable "Network is unreachable") "https://youtu.be/x" "downloads"
             (OtherException "Network is unreachable")).
    + reflexivity.
    + left. reflexivity.
    + reflexivity.
  - apply (failed_probe_is_reported_as_no_format float_of_digits
             (read_only [m4a_128] "Read-only file system") "https://youtu.be/x"
             "downloads" (OtherException "Read-only file system")).
    + reflexivity.
    + right. exists (Some [m4a_128]). split; reflexivity.
    + reflexivity.
Defined.

(** X19.  In every run [extract_audio_from_stream] attempts one download at
    most.  What it raises is what [os.makedirs] raised, what the computation
    of the sort keys raised, the [KeyError] of a format without identifier,
    or something that is not an [Exception]. *)
Theorem extraction_never_retries float_of_str p url output_dir :
  let run := extract_audio_from_stream float_of_str p url output_dir [] in
  (length (downloads (snd run)) <= 1)%nat
  /\ forall e,
       fst run = Raises e ->
       makedirs_error p output_dir = Some e
       \/ (exists info,
             extract_info p url = Returns info
             /\ select_best_audio float_of_str (default [] info) = Raises e)
       \/ e = KeyError "format_id"
       \/ is_Exception e = false.
Proof.
  intros run. unfold run, select_best_audio. unfold_extraction.
  destruct (makedirs_error p output_dir) as [e0 |]; cbn.
  { split; [lia |]. intros e H. injection H as <-. auto. }
  destruct (extract_info p url) as [info | e1]; cbn.
  - destruct (dump_error p (default [] info)) as [e2 |]; cbn.
    + destruct (is_Exception e2) eqn:Hexc; cbn.
      * split; [lia | discriminate].
      * split; [lia |]. intros e H. injection H as <-. auto.
    + destruct (best_audio float_of_str (audio_formats_of (default [] info)))
        as [[best |] | e3] eqn:Hbest; cbn.
      * destruct (best !! "format_id") as [format_id |]; cbn.
        -- match goal with
           | |- context [download_error p ?o url] =>
               destruct (download_error p o url) as [e4 |]
           end; cbn.
           ++ destruct (is_Exception e4) eqn:Hexc; cbn.
              ** split; [lia | discriminate].
              ** split; [lia |]. intros e H. injection H as <-. auto.
           ++ split; [lia | discriminate].
        -- split; [lia |]. intros e H. injection H as <-. auto.
      * split; [lia | discriminate].
      * split; [lia |]. intros e H. injection H as <-. right. left. eauto.
  - destruct (is_Exception e1) eqn:Hexc; cbn.
    + split; [lia | discriminate].
    + split; [lia |]. intros e H. injection H as <-. auto.
Qed.

(** A list with a bitrate that is not a number: what the extraction raises
    is what the selection raised. *)
Lemma extraction_never_retries_witness :
  let p := provider [m4a_128; opus_garbled] in
  let e := ValueError "could not convert string to float" in
  makedirs_error p "downloads" = Some e
  \/ (exists info,
        extract_info p "https://youtu.be/x" = Returns info
        /\ select_best_audio float_of_digits (default [] info) = Raises e)
  \/ e = KeyError "format_id"
  \/ is_Exception e = false.
Proof.
  intros p e.
  apply (proj2 (extraction_never_retries float_of_digits p "https://youtu.be/x" "downloads")).
  vm_compute. reflexivity.
Defined.

(** ** The first extraction function *)

Lemma append_assoc (a b c : string) : (a +:+ b) +:+ c = a +:+ (b +:+ c).
Proof.
  induction a as [| x a IH]; [reflexivity |].
  rewrite !append_String, IH. reflexivity.
Qed.

Lemma os_path_join_suffix (a b suffix : string) :
  endswith (os_path_join a (b +:+ suffix)) suffix = true.
Proof.
  unfold os_path_join.
  destruct (String.eqb a "" || endswith a "/").
  - rewrite <- append_assoc. apply endswith_append.
  - rewrite <- !append_assoc. apply endswith_append.
Qed.

(** X20.  [extract_audio_from_stream_old] never asks the provider for its
    formats.  Once the output directory is there it attempts one download,
    of the format ["mp3/192"], to a template that ends in [".mp3"]; it
    returns that template when the download succeeds and [None] when it
    raises an [Exception]. *)
Theorem old_extraction_downloads_once p url output_dir :
  let output_path :=
    os_path_join output_dir ("audio_stream_" +:+ timestamp p +:+ ".mp3") in
  let opts := mkOpts (PyStr "mp3/192") output_path "" in
  let run := extract_audio_from_stream_old p url output_dir [] in
  makedirs_error p output_dir = None ->
  endswith output_path ".mp3" = true
  /\ downloads (snd run) = [(opts, url)]
  /\ (forall formats, ~ In (WriteDataJson formats) (snd run)
                      /\ ~ In (PrintFormats formats) (snd run))
  /\ match download_error p opts url with
     | None => fst run = Returns (Some output_path)
     | Some e => is_Exception e = true -> fst run = Returns None
     end.
Proof.
  intros output_path opts run Hdirs.
  split.
  { unfold output_path. rewrite <- append_assoc. apply os_path_join_suffix. }
  unfold run, extract_audio_from_stream_old, try_except, check, emit, raise,
    mbind, prog_bind, mret, prog_ret.
  rewrite Hdirs. cbn. fold output_path. fold opts.
  destruct (download_error p opts url) as [e |]; cbn.
  - destruct (is_Exception e) eqn:Hexc; cbn.
    + repeat split; try reflexivity;
        intros Hin; repeat destruct Hin as [Hin | Hin]; try discriminate Hin; exact Hin.
    + repeat split; try reflexivity; try discriminate;
        intros Hin; repeat destruct Hin as [Hin | Hin]; try discriminate Hin; exact Hin.
  - repeat split; try reflexivity;
      intros Hin; repeat destruct Hin as [Hin | Hin]; try discriminate Hin; exact Hin.
Qed.

(** A download that succeeds. *)
Lemma old_extraction_downloads_once_witness :
  fst (extract_audio_from_stream_old (provider []) "https://youtu.be/x" "downloads" [])
  = Returns (Some "downloads/audio_stream_20240101_120000.mp3")
  /\ downloads (snd (extract_audio_from_stream_old (provider [])
                       "https://youtu.be/x" "downloads" []))
     = [(mkOpts (PyStr "mp3/192") "downloads/audio_stream_20240101_120000.mp3" "",
         "https://youtu.be/x")].
Proof.
  destruct (old_extraction_downloads_once (provider []) "https://youtu.be/x" "downloads")
    as (_ & Hdown & _ & Hret).
  - reflexivity.
  - split; [exact Hret | exact Hdown].
Defined.

(** ** The listing *)

Lemma get_available_formats_contained p url tr :
  contained (fst (get_available_formats p url tr)).
Proof.
  unfold get_available_formats, try_except.
  match goal with
  | |- contained (fst (match ?body with _ => _ end)) =>
      destruct body as [[formats | e] tr1]
  end; [exact I |].
  destruct (is_Exception e) eqn:Hexc; [exact I | exact Hexc].
Qed.

Lemma entries_app (a b : list listing) : entries (a ++ b) = (entries a ++ entries b)%list.
Proof. apply List.filter_app. Qed.

Lemma entries_Probed (tr : list event) : entries (map Probed tr) = [].
Proof. induction tr as [| ev tr IH]; [reflexivity | exact IH]. Qed.

Lemma entries_entry_of (formats : list format) :
  entries (map entry_of formats) = map entry_of formats.
Proof.
  induction formats as [| f formats IH]; [reflexivity |].
  cbn. unfold entries in IH. rewrite IH. reflexivity.
Qed.

(** X21.  [list_available_formats] lets no [Exception] through.  When the
    provider answers, it prints one entry for each format kept by
    [get_available_formats], in the order of the provider, with ['N/A'] for
    what a format lacks; when the probe raises an [Exception] it prints the
    error and the heading, and no entry. *)
Theorem listing_shows_the_formats_kept p url :
  contained (fst (list_available_formats p url))
  /\ (forall info,
        extract_info p url = Returns info ->
        dump_error p (default [] info) = None ->
        entries (snd (list_available_formats p url))
        = map entry_of (audio_formats_of (default [] info)))
  /\ (forall e,
        extract_info p url = Raises e ->
        is_Exception e = true ->
        list_available_formats p url
        = (Returns tt, [Probed (PrintErrorGettingFormats e); AvailableAudioFormats])).
Proof.
  split; [| split].
  - unfold list_available_formats.
    pose proof (get_available_formats_contained p url []) as Hsafe.
    destruct (get_available_formats p url []) as [[formats | e] tr]; [exact I | exact Hsafe].
  - intros info Hinfo Hdump.
    unfold list_available_formats, get_available_formats, try_except, check, emit,
      lift, mbind, prog_bind, mret, prog_ret.
    rewrite Hinfo. cbn. rewrite Hdump. cbn.
    apply (entries_entry_of (audio_formats_of (default [] info))).
  - intros e Hinfo Hexc.
    unfold list_available_formats, get_available_formats, try_except, check, emit,
      lift, mbind, prog_bind, mret, prog_ret.
    rewrite Hinfo. cbn. rewrite Hexc. reflexivity.
Qed.

(** A format with video and two audio-only formats, one of them without
    identifier. *)
Lemma listing_shows_the_formats_kept_witness :
  entries (snd (list_available_formats (provider [mp4_96; anonymous_audio; m4a_128])
                  "https://youtu.be/x"))
  = [FormatEntry (PyStr "N/A") (PyStr "N/A") (PyInt 160);
     FormatEntry (PyStr "140") (PyStr "N/A") (PyFloat (128 # 1))].
Proof.
  apply (proj1 (proj2 (listing_shows_the_formats_kept
                         (provider [mp4_96; anonymous_audio; m4a_128])
                         "https://youtu.be/x"))
           (Some [mp4_96; anonymous_audio; m4a_128])); reflexivity.
Defined.
